(** * Document elements: identity, equality and the cleaning pipeline

    A shallow embedding of [unstructured/documents/elements.py]: the
    element classes ([Element], [CheckBox], [Text] and the subclasses of
    [Text]), their constructors, their [__eq__] methods and [Text.apply].

    Python raises exceptions, so every operation that can raise returns
    a [result].  Methods that assign to [self] return the new state of
    the object next to their outcome. *)

From Stdlib Require Import List NArith ZArith Bool String Ascii Lia.
From Stdlib Require Import Floats.SpecFloat.
From Stdlib Require Init.Byte.
Import ListNotations.

Local Open Scope N_scope.

(* ================================================================== *)
(** ** Exceptions and results *)

Inductive exn : Type :=
| AttributeError (cls attr : string)   (* 'cls' object has no attribute 'attr' *)
| TypeError (msg : string)
| ValueError (msg : string)
| UnicodeEncodeError (position : nat). (* 'utf-8' codec can't encode character *)

Inductive result (A : Type) : Type :=
| Ok (a : A)
| Raise (e : exn).

Arguments Ok {A} a.
Arguments Raise {A} e.

Definition bind {A B : Type} (r : result A) (k : A -> result B) : result B :=
  match r with
  | Ok a => k a
  | Raise e => Raise e
  end.

Declare Scope py_scope.
Delimit Scope py_scope with py.
Notation "x <- r ;; k" := (bind r (fun x => k))
  (at level 100, r at next level, right associativity) : py_scope.
Local Open Scope py_scope.

(* ================================================================== *)
(** ** Python strings

    A [str] is a sequence of Unicode code points (values below
    [0x110000]); [==] on strings compares them code point by code
    point. *)

Definition str : Type := list N.

Definition lit (s : string) : str :=
  List.map N_of_ascii (list_ascii_of_string s).

Fixpoint str_eq (a b : str) : bool :=
  match a, b with
  | [], [] => true
  | x :: a', y :: b' => (x =? y) && str_eq a' b'
  | _, _ => false
  end.

(** *** [str.encode()]: strict UTF-8

    Surrogate code points (U+D800..U+DFFF) have no UTF-8 encoding; the
    default error handler is ['strict'], so [encode] raises
    [UnicodeEncodeError] at the first of them. *)

Definition byte_of (n : N) : Byte.byte :=
  match Byte.of_N (n mod 256) with
  | Some b => b
  | None => Byte.x00
  end.

Definition utf8_char (c : N) : option (list Byte.byte) :=
  if c <? 0x80 then Some [byte_of c]
  else if c <? 0x800 then
    Some [byte_of (N.lor 0xC0 (N.shiftr c 6));
          byte_of (N.lor 0x80 (N.land c 0x3F))]
  else if (0xD800 <=? c) && (c <=? 0xDFFF) then None
  else if c <? 0x10000 then
    Some [byte_of (N.lor 0xE0 (N.shiftr c 12));
          byte_of (N.lor 0x80 (N.land (N.shiftr c 6) 0x3F));
          byte_of (N.lor 0x80 (N.land c 0x3F))]
  else if c <? 0x110000 then
    Some [byte_of (N.lor 0xF0 (N.shiftr c 18));
          byte_of (N.lor 0x80 (N.land (N.shiftr c 12) 0x3F));
          byte_of (N.lor 0x80 (N.land (N.shiftr c 6) 0x3F));
          byte_of (N.lor 0x80 (N.land c 0x3F))]
  else None.

Fixpoint encode_from (position : nat) (s : str) : result (list Byte.byte) :=
  match s with
  | [] => Ok []
  | c :: s' =>
      match utf8_char c with
      | None => Raise (UnicodeEncodeError position)
      | Some bs => rest <- encode_from (S position) s' ;; Ok (bs ++ rest)
      end
  end.

Definition encode (s : str) : result (list Byte.byte) := encode_from 0 s.

(* ================================================================== *)
(** ** [hashlib.sha256]

    SHA-256 as laid down in FIPS 180-4, on 32-bit words held in [N]
    with the wrap-around written out. *)

Module SHA256.

Definition word (x : N) : N := N.land x 0xFFFFFFFF.
Definition plus (x y : N) : N := word (x + y).
Definition rotr (n x : N) : N :=
  N.lor (N.shiftr x n) (word (N.shiftl x (32 - n))).
Definition compl (x : N) : N := N.lxor x 0xFFFFFFFF.

Definition choose (x y z : N) : N :=
  N.lxor (N.land x y) (N.land (compl x) z).
Definition majority (x y z : N) : N :=
  N.lxor (N.lxor (N.land x y) (N.land x z)) (N.land y z).
Definition Sum0 (x : N) : N :=
  N.lxor (N.lxor (rotr 2 x) (rotr 13 x)) (rotr 22 x).
Definition Sum1 (x : N) : N :=
  N.lxor (N.lxor (rotr 6 x) (rotr 11 x)) (rotr 25 x).
Definition sig0 (x : N) : N :=
  N.lxor (N.lxor (rotr 7 x) (rotr 18 x)) (N.shiftr x 3).
Definition sig1 (x : N) : N :=
  N.lxor (N.lxor (rotr 17 x) (rotr 19 x)) (N.shiftr x 10).

(** The first primes, by trial division. *)
Definition is_prime (n : nat) : bool :=
  List.forallb (fun d => negb (Nat.eqb (n mod d) 0)) (List.seq 2 (n - 2)).

Definition primes (count : nat) : list N :=
  List.map N.of_nat (List.firstn count (List.filter is_prime (List.seq 2 320))).

(** The integer cube root: the bits of the root are fixed from bit
    [bits - 1] down. *)
Fixpoint cube_root (bits : nat) (n root : N) : N :=
  match bits with
  | O => root
  | S bits' =>
      let r := root + N.shiftl 1 (N.of_nat bits') in
      cube_root bits' n (if r * r * r <=? n then r else root)
  end.

(** The sixty-four round constants: the first 32 bits of the
    fractional parts of the cube roots of the first 64 primes. *)
Definition round_constants : list N :=
  Eval vm_compute in
    List.map (fun p => word (cube_root 36 (N.shiftl p 96) 0)) (primes 64).

(** The eight working registers a..h, also the running hash value. *)
Record regs : Type := Regs { ra : N; rb : N; rc : N; rd : N;
                             re : N; rf : N; rg : N; rh : N }.

(** The initial hash value: the first 32 bits of the fractional parts
    of the square roots of the first 8 primes. *)
Definition root_bits (p : N) : N := word (N.sqrt (N.shiftl p 64)).

Definition initial : regs :=
  Eval vm_compute in
    Regs (root_bits 2) (root_bits 3) (root_bits 5) (root_bits 7)
         (root_bits 11) (root_bits 13) (root_bits 17) (root_bits 19).

(** Padding: the byte 0x80, zero bytes up to 56 modulo 64, then the
    length of the message in bits as a 64-bit big-endian number. *)
Definition be_bytes (width : nat) (n : N) : list N :=
  List.map (fun i => N.land (N.shiftr n (8 * N.of_nat i)) 0xFF)
           (List.rev (List.seq 0 width)).

Definition pad (msg : list N) : list N :=
  let len := List.length msg in
  let zeros := ((119 - len mod 64) mod 64)%nat in
  msg ++ [0x80] ++ List.repeat 0 zeros ++ be_bytes 8 (8 * N.of_nat len).

Fixpoint be_words (bytes : list N) : list N :=
  match bytes with
  | b0 :: b1 :: b2 :: b3 :: rest =>
      N.lor (N.shiftl b0 24) (N.lor (N.shiftl b1 16) (N.lor (N.shiftl b2 8) b3))
      :: be_words rest
  | _ => []
  end.

(** Message schedule: sixteen words of the block, extended to 64. *)
Fixpoint extend (more : nat) (w : list N) : list N :=
  match more with
  | O => w
  | S more' =>
      let t := List.length w in
      let at_ (back : nat) := List.nth (t - back) w 0 in
      extend more'
        (w ++ [plus (plus (plus (sig1 (at_ 2%nat)) (at_ 7%nat))
                          (sig0 (at_ 15%nat))) (at_ 16%nat)])
  end.

Definition round (r : regs) (kw : N * N) : regs :=
  let t1 := plus (plus (plus (plus (rh r) (Sum1 (re r)))
                             (choose (re r) (rf r) (rg r))) (fst kw)) (snd kw) in
  let t2 := plus (Sum0 (ra r)) (majority (ra r) (rb r) (rc r)) in
  Regs (plus t1 t2) (ra r) (rb r) (rc r) (plus (rd r) t1) (re r) (rf r) (rg r).

Definition compress (h : regs) (block : list N) : regs :=
  let r := List.fold_left round
             (List.combine round_constants (extend 48 block)) h in
  Regs (plus (ra h) (ra r)) (plus (rb h) (rb r))
       (plus (rc h) (rc r)) (plus (rd h) (rd r))
       (plus (re h) (re r)) (plus (rf h) (rf r))
       (plus (rg h) (rg r)) (plus (rh h) (rh r)).

Fixpoint blocks (count : nat) (h : regs) (words : list N) : regs :=
  match count with
  | O => h
  | S count' =>
      blocks count' (compress h (List.firstn 16 words)) (List.skipn 16 words)
  end.

(** The digest: 32 bytes, the eight registers in big-endian order. *)
Definition digest (msg : list Byte.byte) : list N :=
  let words := be_words (pad (List.map Byte.to_N msg)) in
  let h := blocks (List.length words / 16) initial words in
  List.flat_map (be_bytes 4)
    [ra h; rb h; rc h; rd h; re h; rf h; rg h; rh h].

(** [hexdigest()]: two lowercase hexadecimal digits per byte. *)
Definition hex_digit (n : N) : N :=
  if n <? 10 then 48 + n else 87 + n.   (* '0'..'9', 'a'..'f' *)

Definition hex_byte (b : N) : str :=
  [hex_digit (N.shiftr b 4); hex_digit (N.land b 0xF)].

Definition hexdigest (msg : list Byte.byte) : str :=
  List.flat_map hex_byte (digest msg).

End SHA256.

Definition enc_ascii (s : string) : list Byte.byte :=
  match encode (lit s) with Ok bs => bs | Raise _ => [] end.

(* ================================================================== *)
(** ** Floats and coordinates

    A coordinate list holds references to float objects.  When Python
    compares two lists it compares the items with
    [PyObject_RichCompareBool]: two references to the same object are
    equal at once, otherwise [float.__eq__] decides, which is the IEEE
    754 comparison (a NaN differs from every float, itself included). *)

Record pyfloat : Type := Float { address : N; number : spec_float }.

Definition item_eq (x y : pyfloat) : bool :=
  (address x =? address y) || SFeqb (number x) (number y).

Fixpoint list_eq (a b : list pyfloat) : bool :=
  match a, b with
  | [], [] => true
  | x :: a', y :: b' => item_eq x y && list_eq a' b'
  | _, _ => false
  end.

(** [==] on [Optional[List[float]]]: [None] equals only [None]. *)
Definition coordinates_eq (a b : option (list pyfloat)) : bool :=
  match a, b with
  | None, None => true
  | Some la, Some lb => list_eq la lb
  | _, _ => false
  end.

(* ================================================================== *)
(** ** The element classes *)

(** [Union[str, NoID]]: an identifier, or an instance of [NoID]. *)
Inductive element_id : Type :=
| NoID
| Id (s : str).

Definition isinstance_NoID (i : element_id) : bool :=
  match i with NoID => true | Id _ => false end.

(** The attributes set by [Element.__init__]. *)
Record Element : Type :=
  { id : element_id;
    coordinates : option (list pyfloat) }.

Record CheckBox : Type :=
  { checkbox_base :> Element;
    checked : bool }.

(** [Text] and its subclasses; each carries a class attribute
    [category]. *)
Inductive text_class : Type :=
| Text | FigureCaption | NarrativeText | ListItem
| Title | Address | Image | PageBreak.

Definition category (c : text_class) : str :=
  lit match c with
      | Text => "Uncategorized"
      | FigureCaption => "FigureCaption"
      | NarrativeText => "NarrativeText"
      | ListItem => "ListItem"
      | Title => "Title"
      | Address => "Address"
      | Image => "Image"
      | PageBreak => "PageBreak"
      end.

Definition class_name (c : text_class) : string :=
  match c with
  | Text => "Text"
  | FigureCaption => "FigureCaption"
  | NarrativeText => "NarrativeText"
  | ListItem => "ListItem"
  | Title => "Title"
  | Address => "Address"
  | Image => "Image"
  | PageBreak => "PageBreak"
  end.

Record TextElement : Type :=
  { cls : text_class;
    text_base :> Element;
    text : str }.

Definition set_text (self : TextElement) (s : str) : TextElement :=
  {| cls := cls self; text_base := text_base self; text := s |}.

(** An instance of one of the concrete classes. *)
Inductive element : Type :=
| CheckBoxObj (c : CheckBox)
| TextObj (t : TextElement).

(** *** Attribute access on an arbitrary element

    [other.name] raises [AttributeError] when the object has no such
    attribute. *)

Definition type_name (o : element) : string :=
  match o with
  | CheckBoxObj _ => "CheckBox"
  | TextObj t => class_name (cls t)
  end.

Definition get_checked (o : element) : result bool :=
  match o with
  | CheckBoxObj c => Ok (checked c)
  | TextObj _ => Raise (AttributeError (type_name o) "checked")
  end.

Definition get_coordinates (o : element) : result (option (list pyfloat)) :=
  match o with
  | CheckBoxObj c => Ok (coordinates c)
  | TextObj t => Ok (coordinates t)
  end.

Definition get_text (o : element) : result str :=
  match o with
  | CheckBoxObj _ => Raise (AttributeError (type_name o) "text")
  | TextObj t => Ok (text t)
  end.

Definition get_category (o : element) : result str :=
  match o with
  | CheckBoxObj _ => Raise (AttributeError (type_name o) "category")
  | TextObj t => Ok (category (cls t))
  end.

(** The builtin [all] on a list of booleans. *)
Definition all (l : list bool) : bool := List.forallb (fun b => b) l.

(** *** Values a cleaner may return *)

Inductive value : Type :=
| VStr (s : str)
| VNone
| VBool (b : bool)
| VInt (z : Z)
| VBytes (b : list Byte.byte).

Definition isinstance_str (v : value) : bool :=
  match v with VStr _ => true | _ => false end.

(** A cleaner is any callable of one argument; it may raise. *)
Definition cleaner : Type := value -> result value.

(* ------------------------------------------------------------------ *)

Module Element.

Definition __init__ (element_id : element_id)
                    (coordinates : option (list pyfloat)) : Element :=
  {| id := element_id; coordinates := coordinates |}.

End Element.

Module CheckBox.

Definition __init__ (element_id : element_id)
                    (coordinates : option (list pyfloat))
                    (checked : bool) : CheckBox :=
  {| checkbox_base := {| id := element_id; coordinates := coordinates |};
     checked := checked |}.

(** [and] evaluates its right operand only when the left one is
    true. *)
Definition __eq__ (self : CheckBox) (other : element) : result bool :=
  other_checked <- get_checked other ;;
  if Bool.eqb (checked self) other_checked then
    other_coordinates <- get_coordinates other ;;
    Ok (coordinates_eq (coordinates self) other_coordinates)
  else Ok false.

End CheckBox.

Module Text.

(** [cls] is the class being instantiated.  The [coordinates]
    argument is not passed on: [Element.__init__] is called with
    [element_id] alone, so its [coordinates] parameter takes its
    default, [None]. *)
Definition __init__ (cls : text_class) (text : str)
                    (element_id : element_id)
                    (coordinates : option (list pyfloat))
  : result TextElement :=
  element_id <-
    (if isinstance_NoID element_id then
       encoded <- encode text ;;
       Ok (Id (List.firstn 32 (SHA256.hexdigest encoded)))
     else Ok element_id) ;;
  Ok {| cls := cls;
        text_base := Element.__init__ element_id None;
        text := text |}.

Definition __str__ (self : TextElement) : str := text self.

(** The list passed to [all] is built first: the three attributes of
    [other] are read in this order. *)
Definition __eq__ (self : TextElement) (other : element) : result bool :=
  other_text <- get_text other ;;
  other_coordinates <- get_coordinates other ;;
  other_category <- get_category other ;;
  Ok (all [str_eq (text self) other_text;
           coordinates_eq (coordinates self) other_coordinates;
           str_eq (category (cls self)) other_category]).

(** The [for] loop of [apply]: each cleaner is called on what the
    previous one returned; an exception leaves the loop. *)
Fixpoint for_cleaners (cleaners : list cleaner) (cleaned_text : value)
  : result value :=
  match cleaners with
  | [] => Ok cleaned_text
  | cleaner :: rest =>
      cleaned_text <- cleaner cleaned_text ;;
      for_cleaners rest cleaned_text
  end.

(** [apply] returns nothing; next to the outcome stands the object
    after the call.  [self.text] is assigned in the last statement
    only. *)
Definition apply (self : TextElement) (cleaners : list cleaner)
  : TextElement * result unit :=
  match for_cleaners cleaners (VStr (text self)) with
  | Raise e => (self, Raise e)
  | Ok cleaned_text =>
      match cleaned_text with
      | VStr s => (set_text self s, Ok tt)
      | _ => (self, Raise (ValueError "Cleaner produced a non-string output."))
      end
  end.

(** The arguments of the successive cleaner calls made by the loop,
    in order: one entry for each cleaner that is invoked. *)
Fixpoint invocations (cleaners : list cleaner) (cleaned_text : value)
  : list value :=
  match cleaners with
  | [] => []
  | cleaner :: rest =>
      cleaned_text ::
      match cleaner cleaned_text with
      | Ok v => invocations rest v
      | Raise _ => []
      end
  end.

End Text.

Module PageBreak.

Definition __init__ : result TextElement :=
  Text.__init__ PageBreak (lit "<PAGE BREAK>") NoID None.

End PageBreak.

(* ================================================================== *)
(** ** Calling a class, and the [==] operator *)

(** What a caller passes to a constructor of [Text] or of one of its
    subclasses, positionally or by keyword; [None] stands for an
    argument that is not passed.  The messages of the [TypeError]s
    depend on the interpreter and are abridged. *)
Record arguments : Type :=
  { arg_text : option str;
    arg_element_id : option element_id;
    arg_coordinates : option (option (list pyfloat)) }.

Definition default {A : Type} (d : A) (o : option A) : A :=
  match o with Some a => a | None => d end.

(** [cls(...)]: the arguments are bound to the parameters of the
    [__init__] the class has.  [PageBreak.__init__] has no parameter
    but [self]; the others inherit [Text.__init__], where [text] is
    required, [element_id] defaults to an instance of [NoID] and
    [coordinates] to [None]. *)
Definition new (cls : text_class) (args : arguments) : result TextElement :=
  match cls with
  | PageBreak =>
      match arg_text args, arg_element_id args, arg_coordinates args with
      | None, None, None => PageBreak.__init__
      | _, _, _ => Raise (TypeError "__init__() takes 1 positional argument")
      end
  | _ =>
      match arg_text args with
      | None => Raise (TypeError "__init__() missing 1 required positional argument: 'text'")
      | Some text =>
          Text.__init__ cls text (default NoID (arg_element_id args))
                        (default None (arg_coordinates args))
      end
  end.

(** The [__eq__] found on the class of [self]. *)
Definition __eq__ (self other : element) : result bool :=
  match self with
  | CheckBoxObj c => CheckBox.__eq__ c other
  | TextObj t => Text.__eq__ t other
  end.

(** [type(w)] is a proper subclass of [type(v)]: only the subclasses
    of [Text] below [Text] itself. *)
Definition proper_subclass (w v : element) : bool :=
  match w, v with
  | TextObj tw, TextObj tv =>
      match cls tv, cls tw with
      | Text, Text => false
      | Text, _ => true
      | _, _ => false
      end
  | _, _ => false
  end.

(** [v == w]: when the class of [w] is a proper subclass of the class
    of [v], the method of [w] is tried first.  Neither [__eq__] ever
    returns [NotImplemented], so the first method tried decides. *)
Definition op_eq (v w : element) : result bool :=
  if proper_subclass w v then __eq__ w v else __eq__ v w.

(* ================================================================== *)
(** ** Example cleaners *)

Definition is_space (c : N) : bool :=
  (c =? 32) || ((9 <=? c) && (c <=? 13)).

Fixpoint lstrip (s : str) : str :=
  match s with
  | c :: s' => if is_space c then lstrip s' else s
  | [] => []
  end.

Definition strip (s : str) : str := List.rev (lstrip (List.rev (lstrip s))).

Definition lower (s : str) : str :=
  List.map (fun c => if (65 <=? c) && (c <=? 90) then c + 32 else c) s.

Definition upper (s : str) : str :=
  List.map (fun c => if (97 <=? c) && (c <=? 122) then c - 32 else c) s.

(** A method of [str] used as a cleaner: on anything but a string the
    call raises. *)
Definition str_method (name : string) (f : str -> str) : cleaner :=
  fun v =>
    match v with
    | VStr s => Ok (VStr (f s))
    | _ => Raise (TypeError name)
    end.

(** [lambda text: None] *)
Definition returns_None : cleaner := fun _ => Ok VNone.

(** [lambda text: s], whatever the argument *)
Definition constantly (s : str) : cleaner := fun _ => Ok (VStr s).

(** Cleaners that take a string to a string. *)
Definition string_cleaner (f : str -> str) (c : cleaner) : Prop :=
  forall s : str, c (VStr s) = Ok (VStr (f s)).

(* ================================================================== *)
(** ** Values used in the examples *)

(** A lowercase hexadecimal digit: ['0'..'9'] or ['a'..'f']. *)
Definition lower_hex (c : N) : bool :=
  ((48 <=? c) && (c <=? 57)) || ((97 <=? c) && (c <=? 102)).

Definition hello_world : str := lit "Hello world".

Definition lone_surrogate : str := [0xD800].

Definition with_id (e : TextElement) (i : element_id) : TextElement :=
  {| cls := cls e;
     text_base := {| id := i; coordinates := coordinates e |};
     text := text e |}.

Definition a_checkbox : CheckBox := CheckBox.__init__ NoID None false.

Definition a_text : TextElement :=
  {| cls := Text;
     text_base := {| id := Id (lit "id-1"); coordinates := None |};
     text := lit "ab" |}.

(* ================================================================== *)
(** ** Vocabulary of the further properties *)

(** A surrogate code point, U+D800..U+DFFF. *)
Definition is_surrogate (c : N) : bool := (0xD800 <=? c) && (c <=? 0xDFFF).

(** A code point that UTF-8 encodes: below [0x110000] and not a
    surrogate. *)
Definition scalar (c : N) : Prop := c < 0x110000 /\ is_surrogate c = false.

(** The [coordinates] attribute, which every element has. *)
Definition coordinates_of (o : element) : option (list pyfloat) :=
  match o with
  | CheckBoxObj c => coordinates c
  | TextObj t => coordinates t
  end.

(** The float objects a [coordinates] value refers to. *)
Definition floats_of (c : option (list pyfloat)) : list pyfloat :=
  match c with Some l => l | None => [] end.

(** At one address there is one float object, and a float object does
    not change: two references with the same address give the same
    number. *)
Definition consistent (heap : list pyfloat) : Prop :=
  forall x y : pyfloat,
    List.In x heap -> List.In y heap ->
    address x = address y -> number x = number y.

(** What IEEE equality looks at: nothing for a NaN, one value for the
    two zeros, the float itself otherwise. *)
Definition sf_key (x : spec_float) : option spec_float :=
  match x with
  | S754_nan => None
  | S754_zero _ => Some (S754_zero false)
  | _ => Some x
  end.

(* ================================================================== *)
(** * Properties *)

(** ** Test vectors for the encoder and the digest *)

Example sha_empty :
  SHA256.hexdigest [] = lit "e3b0c44298fc1c149afbf4c8996fb92427ae41e4649b934ca495991b7852b855".
Proof. vm_compute. reflexivity. Qed.

Example sha_abc :
  SHA256.hexdigest (enc_ascii "abc")
  = lit "ba7816bf8f01cfea414140de5dae2223b00361a396177a9cb410ff61f20015ad".
Proof. vm_compute. reflexivity. Qed.

Example sha_55 :
  SHA256.hexdigest (List.repeat Byte.x61 55)
  = lit "9f4390f8d30c2dd92ec9f095b65e2b9ae9b0a925a5258e241c9f1e910f734318".
Proof. vm_compute. reflexivity. Qed.

Example sha_56 :
  SHA256.hexdigest (List.repeat Byte.x61 56)
  = lit "b35439a4ac6f0948b6d6f9e3c6af0f5f590ce20f1bde7090ef7970686ec6738a".
Proof. vm_compute. reflexivity. Qed.

Example sha_64 :
  SHA256.hexdigest (List.repeat Byte.x61 64)
  = lit "ffe054fe7ae0cb6dc65c3af9b61d5209f439851db43d0ba5997337df154668eb".
Proof. vm_compute. reflexivity. Qed.

Example utf8_mixed :
  encode [0x68; 0xE9; 0x20AC; 0x1F600]
  = Ok (List.map byte_of [0x68; 0xc3; 0xa9; 0xe2; 0x82; 0xac; 0xf0; 0x9f; 0x98; 0x80]).
Proof. vm_compute. reflexivity. Qed.

Example sha_mixed :
  bind (encode [0x68; 0xE9; 0x20AC; 0x1F600]) (fun bs => Ok (SHA256.hexdigest bs))
  = Ok (lit "39d15ee696a6f5bd03a5220ddcac864c6f6c2833b3ae973bfa10e202056fd284").
Proof. vm_compute. reflexivity. Qed.

(* ================================================================== *)
(** ** Properties of the comparisons *)

Lemma str_eq_iff (a b : str) : str_eq a b = true <-> a = b.
Proof.
  revert b; induction a as [|x a IH]; intros [|y b]; simpl;
    try (split; [discriminate | discriminate]); [tauto|].
  rewrite andb_true_iff, N.eqb_eq, IH.
  split; [intros [-> ->]; reflexivity | intros [= -> ->]; auto].
Qed.

Lemma str_eq_refl (a : str) : str_eq a a = true.
Proof. apply str_eq_iff; reflexivity. Qed.

Lemma str_eq_sym (a b : str) : str_eq a b = str_eq b a.
Proof.
  destruct (str_eq a b) eqn:E.
  - apply str_eq_iff in E; subst; symmetry; apply str_eq_refl.
  - destruct (str_eq b a) eqn:E'; [|reflexivity].
    apply str_eq_iff in E'; subst; rewrite str_eq_refl in E; discriminate.
Qed.

Lemma SFeqb_true_sym (x y : spec_float) : SFeqb x y = true -> SFeqb y x = true.
Proof.
  unfold SFeqb.
  destruct x as [sx|sx| |sx mx ex], y as [sy|sy| |sy my ey]; simpl;
    try (intros; reflexivity); try discriminate;
    try (destruct sx; discriminate); try (destruct sy; discriminate);
    try (destruct sx, sy; (discriminate || reflexivity)).
  destruct sx, sy; try discriminate.
  all: destruct (Z.compare_spec ex ey) as [->| |]; try discriminate.
  all: rewrite Z.compare_refl.
  all: destruct (Pos.compare_cont Eq mx my) eqn:E; try discriminate.
  all: apply Pos.compare_eq_iff in E; subst.
  all: fold (Pos.compare my my); rewrite Pos.compare_refl; reflexivity.
Qed.

Lemma SFeqb_sym (x y : spec_float) : SFeqb x y = SFeqb y x.
Proof.
  destruct (SFeqb x y) eqn:E.
  - symmetry; apply SFeqb_true_sym; exact E.
  - destruct (SFeqb y x) eqn:E'; [|reflexivity].
    apply SFeqb_true_sym in E'; congruence.
Qed.

Lemma item_eq_refl (x : pyfloat) : item_eq x x = true.
Proof. unfold item_eq; rewrite N.eqb_refl; reflexivity. Qed.

Lemma item_eq_sym (x y : pyfloat) : item_eq x y = item_eq y x.
Proof. unfold item_eq; rewrite N.eqb_sym, SFeqb_sym; reflexivity. Qed.

Lemma list_eq_refl (l : list pyfloat) : list_eq l l = true.
Proof.
  induction l as [|x l IH]; simpl; [reflexivity|].
  rewrite item_eq_refl, IH; reflexivity.
Qed.

Lemma list_eq_sym (a b : list pyfloat) : list_eq a b = list_eq b a.
Proof.
  revert b; induction a as [|x a IH]; intros [|y b]; simpl; try reflexivity.
  rewrite item_eq_sym, IH; reflexivity.
Qed.

Lemma coordinates_eq_refl (c : option (list pyfloat)) : coordinates_eq c c = true.
Proof. destruct c; simpl; [apply list_eq_refl | reflexivity]. Qed.

Lemma coordinates_eq_sym (a b : option (list pyfloat)) :
  coordinates_eq a b = coordinates_eq b a.
Proof. destruct a, b; simpl; try reflexivity; apply list_eq_sym. Qed.

(* ================================================================== *)
(** ** Shape of the hexadecimal digest *)

Lemma hex_digit_lower (n : N) : n < 16 -> lower_hex (SHA256.hex_digit n) = true.
Proof.
  intros H; unfold SHA256.hex_digit, lower_hex.
  destruct (N.ltb_spec n 10).
  - replace (48 <=? 48 + n) with true by (symmetry; apply N.leb_le; lia).
    replace (48 + n <=? 57) with true by (symmetry; apply N.leb_le; lia).
    reflexivity.
  - replace (97 <=? 87 + n) with true by (symmetry; apply N.leb_le; lia).
    replace (87 + n <=? 102) with true by (symmetry; apply N.leb_le; lia).
    apply orb_true_r.
Qed.

Lemma land_255_lt (x : N) : N.land x 0xFF < 256.
Proof.
  change 0xFF with (N.ones 8); rewrite N.land_ones.
  apply N.mod_lt; discriminate.
Qed.

Lemma hex_byte_lower (b : N) :
  b < 256 -> List.forallb lower_hex (SHA256.hex_byte b) = true.
Proof.
  intros H; unfold SHA256.hex_byte; cbn [List.forallb].
  rewrite !hex_digit_lower; [reflexivity| |].
  - change 0xF with (N.ones 4); rewrite N.land_ones.
    apply N.mod_lt; discriminate.
  - rewrite N.shiftr_div_pow2.
    apply N.Div0.div_lt_upper_bound; exact H.
Qed.

Lemma digest_bytes (msg : list Byte.byte) :
  List.Forall (fun b => b < 256) (SHA256.digest msg).
Proof.
  unfold SHA256.digest.
  generalize (SHA256.blocks
                (List.length (SHA256.be_words (SHA256.pad (List.map Byte.to_N msg))) / 16)
                SHA256.initial
                (SHA256.be_words (SHA256.pad (List.map Byte.to_N msg)))).
  intros h; cbn [List.flat_map SHA256.be_bytes List.map List.rev List.seq List.app].
  repeat (constructor; [apply land_255_lt|]); constructor.
Qed.

Lemma digest_length (msg : list Byte.byte) :
  List.length (SHA256.digest msg) = 32%nat.
Proof. reflexivity. Qed.

Lemma flat_map_hex_lower (l : list N) :
  List.Forall (fun b => b < 256) l ->
  List.forallb lower_hex (List.flat_map SHA256.hex_byte l) = true.
Proof.
  induction 1 as [|b l Hb _ IH]; [reflexivity|].
  cbn [List.flat_map]; rewrite List.forallb_app, hex_byte_lower, IH by assumption.
  reflexivity.
Qed.

Lemma flat_map_hex_length (l : list N) :
  List.length (List.flat_map SHA256.hex_byte l) = (2 * List.length l)%nat.
Proof.
  induction l as [|b l IH]; [reflexivity|].
  cbn [List.flat_map List.length List.app SHA256.hex_byte]; rewrite IH; lia.
Qed.

Lemma flat_map_hex_firstn (k : nat) (l : list N) :
  List.firstn (2 * k) (List.flat_map SHA256.hex_byte l)
  = List.flat_map SHA256.hex_byte (List.firstn k l).
Proof.
  revert l; induction k as [|k IH]; intros l; [reflexivity|].
  destruct l as [|b l]; [reflexivity|].
  replace (2 * S k)%nat with (S (S (2 * k))) by lia.
  cbn [List.flat_map List.firstn SHA256.hex_byte List.app].
  rewrite IH; reflexivity.
Qed.

(** The first 32 characters of the hexadecimal digest are the first 16
    bytes (128 bits) of the digest in lowercase hexadecimal. *)
Lemma hexdigest_cut (msg : list Byte.byte) :
  let h := List.firstn 32 (SHA256.hexdigest msg) in
  h = List.flat_map SHA256.hex_byte (List.firstn 16 (SHA256.digest msg))
  /\ List.length h = 32%nat
  /\ List.forallb lower_hex h = true.
Proof.
  intros h.
  assert (E : h = List.flat_map SHA256.hex_byte (List.firstn 16 (SHA256.digest msg)))
    by (exact (flat_map_hex_firstn 16 (SHA256.digest msg))).
  rewrite E; split; [reflexivity|split].
  - rewrite flat_map_hex_length, List.length_firstn, digest_length; reflexivity.
  - apply flat_map_hex_lower.
    apply List.Forall_forall; intros b Hb.
    pose proof (digest_bytes msg) as F.
    rewrite List.Forall_forall in F; apply F.
    rewrite <- (List.firstn_skipn 16 (SHA256.digest msg)).
    apply List.in_or_app; left; exact Hb.
Qed.

Lemma Ok_inj {A : Type} (a b : A) : Ok a = Ok b -> a = b.
Proof. intros H; injection H; trivial. Qed.

(** The digest is computed on closed inputs only. *)
Opaque SHA256.hexdigest.

(* ================================================================== *)
(** ** Construction *)

Lemma PageBreak_init_value :
  PageBreak.__init__
  = Ok {| cls := PageBreak;
          text_base := {| id := Id (lit "5ea24028ea5addabb8f07dfff681501d");
                          coordinates := None |};
          text := lit "<PAGE BREAK>" |}.
Proof. vm_compute. reflexivity. Qed.

(** C1, as amended.  For every string [text] that has a UTF-8 encoding
    [bs], constructing an instance of [Text] or of any subclass without
    an identifier succeeds, and the identifier of the new element is
    the first 32 characters of the hexadecimal SHA-256 digest of [bs]:
    the first 16 bytes (128 bits) of the digest, in lowercase
    hexadecimal.  Two constructions from the same text derive the same
    identifier. *)
Theorem Text_init_derives_id
  (c : text_class) (text : str) (coords : option (list pyfloat))
  (bs : list Byte.byte) :
  encode text = Ok bs ->
  let h := List.firstn 32 (SHA256.hexdigest bs) in
  Text.__init__ c text NoID coords
  = Ok {| cls := c;
          text_base := {| id := Id h; coordinates := None |};
          text := text |}
  /\ h = List.flat_map SHA256.hex_byte (List.firstn 16 (SHA256.digest bs))
  /\ List.length h = 32%nat
  /\ List.forallb lower_hex h = true
  /\ match c with
     | PageBreak => True
     | _ => forall k : option (option (list pyfloat)),
              new c {| arg_text := Some text;
                       arg_element_id := None;
                       arg_coordinates := k |}
              = Text.__init__ c text NoID coords
     end
  /\ (forall (c' : text_class) (coords' : option (list pyfloat)),
        exists e', Text.__init__ c' text NoID coords' = Ok e' /\ id e' = Id h).
Proof.
  intros E h.
  assert (I : forall c0 coords0,
             Text.__init__ c0 text NoID coords0
             = Ok {| cls := c0;
                     text_base := {| id := Id h; coordinates := None |};
                     text := text |}).
  { intros c0 coords0; unfold Text.__init__; cbn [isinstance_NoID].
    rewrite E; reflexivity. }
  destruct (hexdigest_cut bs) as (H1 & H2 & H3).
  split; [apply I|]. split; [exact H1|]. split; [exact H2|].
  split; [exact H3|]. split.
  - destruct c; try exact Logic.I; intros k;
      cbn [new arg_text arg_element_id arg_coordinates default];
      rewrite !I; reflexivity.
  - intros c' coords'; eexists; split; [apply I|reflexivity].
Qed.

Lemma Text_init_derives_id_witness :
  encode hello_world
  = Ok (List.map byte_of [72; 101; 108; 108; 111; 32; 119; 111; 114; 108; 100])
  /\ Text.__init__ NarrativeText hello_world NoID None
     = Ok {| cls := NarrativeText;
             text_base := {| id := Id (lit "64ec88ca00b268e5ba1a35678a1b5316");
                             coordinates := None |};
             text := hello_world |}.
Proof.
  split; [vm_compute; reflexivity|].
  destruct (Text_init_derives_id NarrativeText hello_world None
              (List.map byte_of [72; 101; 108; 108; 111; 32; 119; 111; 114; 108; 100]))
    as [H _]; [vm_compute; reflexivity|].
  rewrite H; vm_compute; reflexivity.
Defined.

(** C1 as stated fails for a string that has no UTF-8 encoding: for
    the one-character string made of the surrogate U+D800,
    [text.encode()] raises and no element is constructed. *)
Lemma Text_init_surrogate_raises :
  Text.__init__ Text lone_surrogate NoID None = Raise (UnicodeEncodeError 0)
  /\ new Text {| arg_text := Some lone_surrogate;
                 arg_element_id := None;
                 arg_coordinates := None |}
     = Raise (UnicodeEncodeError 0)
  /\ ~ (exists e, Text.__init__ Text lone_surrogate NoID None = Ok e).
Proof.
  split; [reflexivity|]. split; [reflexivity|].
  intros [e H]; discriminate H.
Qed.

(** C9.  For every class, text and coordinates, constructing with an
    explicit identifier [s] yields an element whose identifier is [s]
    itself.  The text is not encoded or hashed: the construction
    succeeds for every text, also one that has no UTF-8 encoding. *)
Theorem Text_init_explicit_id
  (c : text_class) (text s : str) (coords : option (list pyfloat)) :
  Text.__init__ c text (Id s) coords
  = Ok {| cls := c;
          text_base := {| id := Id s; coordinates := None |};
          text := text |}
  /\ Text.__init__ c lone_surrogate (Id s) coords
     = Ok {| cls := c;
             text_base := {| id := Id s; coordinates := None |};
             text := lone_surrogate |}
  /\ match c with
     | PageBreak => True
     | _ => new c {| arg_text := Some text;
                     arg_element_id := Some (Id s);
                     arg_coordinates := Some coords |}
            = Text.__init__ c text (Id s) coords
     end.
Proof.
  split; [reflexivity|]. split; [reflexivity|].
  destruct c; reflexivity || exact I.
Qed.

(** C7.  Whatever is passed for [coordinates], the [coordinates] of a
    newly constructed text element is [None]: [Text.__init__] gives
    the same result as with [coordinates=None], and every element it
    or a class call returns has [coordinates = None]. *)
Theorem Text_init_drops_coordinates
  (c : text_class) (text : str) (i : element_id)
  (coords : option (list pyfloat)) (e : TextElement) :
  Text.__init__ c text i coords = Ok e ->
  coordinates e = None
  /\ Text.__init__ c text i None = Ok e
  /\ (forall args e', new c args = Ok e' -> coordinates e' = None).
Proof.
  assert (G : forall c0 t0 i0 k0 e0,
             Text.__init__ c0 t0 i0 k0 = Ok e0 -> coordinates e0 = None).
  { intros c0 t0 i0 k0 e0; unfold Text.__init__.
    destruct i0; cbn [isinstance_NoID bind].
    - destruct (encode t0); cbn [bind]; [|discriminate].
      intros H; apply Ok_inj in H; subst e0; reflexivity.
    - intros H; apply Ok_inj in H; subst e0; reflexivity. }
  intros H; split; [exact (G _ _ _ _ _ H)|]. split; [exact H|].
  intros args e'; unfold new, PageBreak.__init__.
  destruct c, (arg_text args), (arg_element_id args), (arg_coordinates args);
    cbv beta iota;
    match goal with
    | |- Raise _ = _ -> _ => discriminate
    | |- Text.__init__ _ _ _ _ = _ -> _ => apply G
    end.
Qed.

Lemma Text_init_drops_coordinates_witness :
  let somewhere := Some [Float 1 (S754_finite false 3 0); Float 2 (S754_zero false)] in
  let e := {| cls := Title;
              text_base := {| id := Id (lit "t-1"); coordinates := None |};
              text := hello_world |} in
  Text.__init__ Title hello_world (Id (lit "t-1")) somewhere = Ok e
  /\ coordinates e = None.
Proof.
  intros somewhere e.
  split; [reflexivity|].
  exact (proj1 (Text_init_drops_coordinates Title hello_world (Id (lit "t-1"))
                  somewhere e eq_refl)).
Defined.

(** C8.  A [PageBreak] constructed with no arguments has the text
    ["<PAGE BREAK>"] and the category ["PageBreak"]; a call of the
    class that passes a text is refused with a [TypeError], whatever
    the text and whatever else is passed. *)
Theorem PageBreak_sentinel :
  (exists e,
      new PageBreak {| arg_text := None; arg_element_id := None;
                       arg_coordinates := None |} = Ok e
      /\ PageBreak.__init__ = Ok e
      /\ text e = lit "<PAGE BREAK>"
      /\ Text.__str__ e = lit "<PAGE BREAK>"
      /\ category (cls e) = lit "PageBreak")
  /\ (forall (t : str) (i : option element_id)
             (k : option (option (list pyfloat))),
         new PageBreak {| arg_text := Some t; arg_element_id := i;
                          arg_coordinates := k |}
         = Raise (TypeError "__init__() takes 1 positional argument")).
Proof.
  split.
  - eexists; cbn [new arg_text arg_element_id arg_coordinates].
    rewrite PageBreak_init_value.
    repeat split; reflexivity.
  - intros t i k; reflexivity.
Qed.

(* ================================================================== *)
(** ** Equality *)

Lemma Text_eq_value (a b : TextElement) :
  Text.__eq__ a (TextObj b)
  = Ok (all [str_eq (text a) (text b);
             coordinates_eq (coordinates a) (coordinates b);
             str_eq (category (cls a)) (category (cls b))]).
Proof. reflexivity. Qed.

Lemma Text_eq_sym (a b : TextElement) :
  Text.__eq__ a (TextObj b) = Text.__eq__ b (TextObj a).
Proof.
  rewrite !Text_eq_value; unfold all; cbn [List.forallb].
  rewrite (str_eq_sym (text a)), (coordinates_eq_sym (coordinates a)),
    (str_eq_sym (category (cls a))).
  reflexivity.
Qed.

(** C5.  For two instances of [Text] or of its subclasses, of the same
    class or not, [__eq__] returns the conjunction of the three field
    comparisons: it is true exactly when the texts are the same string,
    the coordinates compare equal and the categories are the same
    string.  The identifier plays no part: two elements constructed
    from the same text, class and coordinates with different explicit
    identifiers are equal.  The comparison is reflexive and symmetric,
    and [==] gives what [__eq__] gives. *)
Theorem Text_eq_fields (a b : TextElement) :
  Text.__eq__ a (TextObj b)
  = Ok (str_eq (text a) (text b)
        && coordinates_eq (coordinates a) (coordinates b)
        && str_eq (category (cls a)) (category (cls b)))
  /\ (Text.__eq__ a (TextObj b) = Ok true <->
      text a = text b
      /\ coordinates_eq (coordinates a) (coordinates b) = true
      /\ category (cls a) = category (cls b))
  /\ op_eq (TextObj a) (TextObj b) = Text.__eq__ a (TextObj b)
  /\ (forall i j : element_id,
         Text.__eq__ (with_id a i) (TextObj (with_id b j))
         = Text.__eq__ a (TextObj b))
  /\ (forall (c : text_class) (t i j : str) (k : option (list pyfloat)),
         exists e1 e2,
           Text.__init__ c t (Id i) k = Ok e1
           /\ Text.__init__ c t (Id j) k = Ok e2
           /\ op_eq (TextObj e1) (TextObj e2) = Ok true)
  /\ Text.__eq__ a (TextObj a) = Ok true
  /\ Text.__eq__ a (TextObj b) = Text.__eq__ b (TextObj a).
Proof.
  assert (V : forall x y : TextElement,
             Text.__eq__ x (TextObj y)
             = Ok (str_eq (text x) (text y)
                   && coordinates_eq (coordinates x) (coordinates y)
                   && str_eq (category (cls x)) (category (cls y)))).
  { intros x y; rewrite Text_eq_value; unfold all; cbn [List.forallb].
    rewrite andb_true_r, andb_assoc; reflexivity. }
  assert (R : forall x : TextElement, Text.__eq__ x (TextObj x) = Ok true).
  { intros x; rewrite V, !str_eq_refl, coordinates_eq_refl; reflexivity. }
  split; [apply V|]. split; [|split; [|split; [|split; [|split]]]].
  - rewrite V; split.
    + intros H; apply Ok_inj in H.
      apply andb_true_iff in H; destruct H as [H H3].
      apply andb_true_iff in H; destruct H as [H1 H2].
      apply str_eq_iff in H1, H3; auto.
    + intros (H1 & H2 & H3).
      apply str_eq_iff in H1, H3; rewrite H1, H2, H3; reflexivity.
  - unfold op_eq; destruct (proper_subclass (TextObj b) (TextObj a));
      cbn [__eq__]; [apply Text_eq_sym | reflexivity].
  - intros i j; rewrite !V; reflexivity.
  - intros c t i j k; do 2 eexists.
    split; [reflexivity|]. split; [reflexivity|].
    unfold op_eq; match goal with |- (if ?p then _ else _) = _ => destruct p end;
      cbn [__eq__]; rewrite V;
      cbn [text cls coordinates text_base Element.__init__];
      rewrite !str_eq_refl; reflexivity.
  - apply R.
  - apply Text_eq_sym.
Qed.

(** C6.  For two check boxes, [__eq__] is true exactly when the
    [checked] flags are the same and the coordinates compare equal;
    the identifiers play no part. *)
Theorem CheckBox_eq_fields (a b : CheckBox) :
  CheckBox.__eq__ a (CheckBoxObj b)
  = Ok (Bool.eqb (checked a) (checked b)
        && coordinates_eq (coordinates a) (coordinates b))
  /\ (CheckBox.__eq__ a (CheckBoxObj b) = Ok true <->
      checked a = checked b
      /\ coordinates_eq (coordinates a) (coordinates b) = true)
  /\ op_eq (CheckBoxObj a) (CheckBoxObj b) = CheckBox.__eq__ a (CheckBoxObj b)
  /\ (forall i j : element_id,
         CheckBox.__eq__ (CheckBox.__init__ i (coordinates a) (checked a))
           (CheckBoxObj (CheckBox.__init__ j (coordinates b) (checked b)))
         = CheckBox.__eq__ a (CheckBoxObj b)).
Proof.
  assert (V : CheckBox.__eq__ a (CheckBoxObj b)
              = Ok (Bool.eqb (checked a) (checked b)
                    && coordinates_eq (coordinates a) (coordinates b))).
  { unfold CheckBox.__eq__; cbn [get_checked get_coordinates bind].
    destruct (Bool.eqb (checked a) (checked b)); reflexivity. }
  split; [exact V|]. split; [|split].
  - rewrite V; split.
    + intros H; apply Ok_inj in H.
      apply andb_true_iff in H; destruct H as [H1 H2].
      apply Bool.eqb_prop in H1; auto.
    + intros [H1 H2]; rewrite H1, H2, Bool.eqb_reflx; reflexivity.
  - reflexivity.
  - intros i j; rewrite V.
    unfold CheckBox.__eq__, CheckBox.__init__;
      cbn [get_checked get_coordinates bind checked checkbox_base coordinates].
    destruct (Bool.eqb (checked a) (checked b)); reflexivity.
Qed.

(** C2, as amended.  Comparing a check box with a text element, in
    either order, raises [AttributeError]: [CheckBox.__eq__] reads
    [other.checked], which a text element does not have, and
    [Text.__eq__] reads [other.text], which a check box does not
    have.  Neither method tests the class of [other]. *)
Theorem eq_across_shapes_raises (c : CheckBox) (t : TextElement) :
  op_eq (CheckBoxObj c) (TextObj t)
  = Raise (AttributeError (class_name (cls t)) "checked")
  /\ op_eq (TextObj t) (CheckBoxObj c)
     = Raise (AttributeError "CheckBox" "text")
  /\ CheckBox.__eq__ c (TextObj t)
     = Raise (AttributeError (class_name (cls t)) "checked")
  /\ Text.__eq__ t (CheckBoxObj c)
     = Raise (AttributeError "CheckBox" "text").
Proof. repeat split. Qed.

(** C2 as stated fails: comparing an unchecked check box with the
    [Text] element "ab" does not return "not equal" in either order,
    it raises. *)
Lemma eq_across_shapes_not_false :
  op_eq (CheckBoxObj a_checkbox) (TextObj a_text)
  = Raise (AttributeError "Text" "checked")
  /\ op_eq (TextObj a_text) (CheckBoxObj a_checkbox)
     = Raise (AttributeError "CheckBox" "text")
  /\ op_eq (CheckBoxObj a_checkbox) (TextObj a_text) <> Ok false
  /\ op_eq (TextObj a_text) (CheckBoxObj a_checkbox) <> Ok false.
Proof. repeat split; discriminate. Qed.

(* ================================================================== *)
(** ** The cleaning pipeline *)

Lemma set_text_same (self : TextElement) : set_text self (text self) = self.
Proof. destruct self; reflexivity. Qed.

Lemma for_cleaners_strings (fs : list (str -> str)) (cleaners : list cleaner) :
  List.Forall2 string_cleaner fs cleaners ->
  forall s : str,
    Text.for_cleaners cleaners (VStr s)
    = Ok (VStr (List.fold_left (fun s f => f s) fs s)).
Proof.
  induction 1 as [|f c fs cleaners Hc _ IH]; intros s; cbn [Text.for_cleaners List.fold_left].
  - reflexivity.
  - rewrite (Hc s); cbn [bind]; apply IH.
Qed.

(** When no cleaner raises, every cleaner is invoked, and the call
    number [k] receives what the first [k] cleaners produced. *)
Lemma invocations_all (cleaners : list cleaner) (v r : value) :
  Text.for_cleaners cleaners v = Ok r ->
  List.length (Text.invocations cleaners v) = List.length cleaners
  /\ forall k : nat,
       (k < List.length cleaners)%nat ->
       Text.for_cleaners (List.firstn k cleaners) v
       = Ok (List.nth k (Text.invocations cleaners v) VNone).
Proof.
  revert v; induction cleaners as [|c cleaners IH]; intros v;
    cbn [Text.for_cleaners Text.invocations List.length].
  - intros _; split; [reflexivity | intros k Hk; inversion Hk].
  - destruct (c v) as [w|e] eqn:E; cbn [bind]; [|discriminate].
    intros H; destruct (IH w H) as [L K]; split; [rewrite L; reflexivity|].
    intros [|k] Hk; [reflexivity|].
    cbn [List.firstn Text.for_cleaners List.nth]; rewrite E; cbn [bind].
    apply K; apply PeanoNat.lt_S_n; exact Hk.
Qed.

(** C4.  With cleaners that take strings to strings, [apply] succeeds
    and replaces the text by the left-to-right fold of the cleaners
    over the current text; the identifier, the class (hence the
    category) and the coordinates are what they were, whether the
    identifier was given or derived from the text at construction.
    With no cleaner the element is unchanged. *)
Theorem apply_folds_cleaners
  (self : TextElement) (fs : list (str -> str)) (cleaners : list cleaner) :
  List.Forall2 string_cleaner fs cleaners ->
  let cleaned := List.fold_left (fun s f => f s) fs (text self) in
  let after := fst (Text.apply self cleaners) in
  Text.apply self cleaners = (set_text self cleaned, Ok tt)
  /\ text after = cleaned
  /\ id after = id self
  /\ cls after = cls self
  /\ category (cls after) = category (cls self)
  /\ coordinates after = coordinates self
  /\ Text.apply self [] = (self, Ok tt).
Proof.
  intros H cleaned after.
  assert (A : Text.apply self cleaners = (set_text self cleaned, Ok tt)).
  { unfold Text.apply; rewrite (for_cleaners_strings fs cleaners H); reflexivity. }
  subst after; rewrite A; cbn [fst].
  repeat split.
  unfold Text.apply; cbn [Text.for_cleaners]; rewrite set_text_same; reflexivity.
Qed.

(** The scenario of the specification: a [NarrativeText] built from
    "Hello world", cleaned with [str.strip] then [str.lower]. *)
Lemma apply_folds_cleaners_witness :
  let e := {| cls := NarrativeText;
              text_base := {| id := Id (lit "64ec88ca00b268e5ba1a35678a1b5316");
                              coordinates := None |};
              text := hello_world |} in
  let cleaners := [str_method "strip" strip; str_method "lower" lower] in
  Text.__init__ NarrativeText hello_world NoID None = Ok e
  /\ List.Forall2 string_cleaner [strip; lower] cleaners
  /\ Text.apply e cleaners = (set_text e (lit "hello world"), Ok tt)
  /\ id (fst (Text.apply e cleaners)) = Id (lit "64ec88ca00b268e5ba1a35678a1b5316").
Proof.
  intros e cleaners.
  assert (F : List.Forall2 string_cleaner [strip; lower] cleaners)
    by (repeat constructor).
  split; [vm_compute; reflexivity|]. split; [exact F|].
  destruct (apply_folds_cleaners e [strip; lower] cleaners F) as (A & _ & I & _).
  split; [rewrite A; vm_compute; reflexivity | exact I].
Defined.

(** C10.  For cleaners [f] and [g] that take strings to strings,
    [apply(f, g)] and [apply(f)] followed by [apply(g)] both succeed
    and leave the same element, with the text [g (f text)]. *)
Theorem apply_pair_sequential
  (self : TextElement) (f g : str -> str) (cf cg : cleaner) :
  string_cleaner f cf ->
  string_cleaner g cg ->
  let once := fst (Text.apply self [cf]) in
  Text.apply self [cf; cg] = (set_text self (g (f (text self))), Ok tt)
  /\ Text.apply self [cf] = (set_text self (f (text self)), Ok tt)
  /\ Text.apply once [cg] = Text.apply self [cf; cg]
  /\ text (fst (Text.apply once [cg])) = text (fst (Text.apply self [cf; cg])).
Proof.
  intros Hf Hg once.
  assert (A1 : Text.apply self [cf] = (set_text self (f (text self)), Ok tt)).
  { unfold Text.apply; cbn [Text.for_cleaners]; rewrite Hf; reflexivity. }
  assert (A2 : Text.apply self [cf; cg]
               = (set_text self (g (f (text self))), Ok tt)).
  { unfold Text.apply; cbn [Text.for_cleaners]; rewrite Hf; cbn [bind].
    rewrite Hg; reflexivity. }
  assert (A3 : Text.apply once [cg] = Text.apply self [cf; cg]).
  { subst once; rewrite A1, A2; cbn [fst].
    unfold Text.apply; cbn [Text.for_cleaners set_text text]; rewrite Hg; reflexivity. }
  repeat split; try assumption.
  rewrite A3; reflexivity.
Qed.

Lemma apply_pair_sequential_witness :
  let cf := str_method "strip" strip in
  let cg := str_method "upper" upper in
  let e := {| cls := Title;
              text_base := {| id := NoID; coordinates := None |};
              text := lit "  a title " |} in
  string_cleaner strip cf
  /\ string_cleaner upper cg
  /\ Text.apply (fst (Text.apply e [cf])) [cg] = Text.apply e [cf; cg]
  /\ text (fst (Text.apply e [cf; cg])) = lit "A TITLE".
Proof.
  intros cf cg e.
  assert (Hf : string_cleaner strip cf) by (intros s; reflexivity).
  assert (Hg : string_cleaner upper cg) by (intros s; reflexivity).
  split; [exact Hf|]. split; [exact Hg|].
  destruct (apply_pair_sequential e strip upper cf cg Hf Hg) as (A & _ & S & _).
  split; [exact S | rewrite A; vm_compute; reflexivity].
Defined.

(** C3, as amended.  When no cleaner of the sequence raises, every one
    of them is invoked, each on what the one before it returned,
    string or not; if what the last one returns is not a string,
    [apply] raises [ValueError] and leaves the element, its text
    included, as it was before the call. *)
Theorem apply_non_string_result
  (self : TextElement) (cleaners : list cleaner) (v : value) :
  Text.for_cleaners cleaners (VStr (text self)) = Ok v ->
  isinstance_str v = false ->
  Text.apply self cleaners = (self, Raise (ValueError "Cleaner produced a non-string output."))
  /\ List.length (Text.invocations cleaners (VStr (text self)))
     = List.length cleaners
  /\ (forall k : nat,
         (k < List.length cleaners)%nat ->
         Text.for_cleaners (List.firstn k cleaners) (VStr (text self))
         = Ok (List.nth k (Text.invocations cleaners (VStr (text self))) VNone)).
Proof.
  intros H N; split; [|exact (invocations_all _ _ _ H)].
  unfold Text.apply; rewrite H.
  destruct v; [discriminate N| | | |]; reflexivity.
Qed.

Lemma apply_non_string_result_witness :
  let cleaners := [str_method "upper" upper; returns_None] in
  Text.for_cleaners cleaners (VStr (text a_text)) = Ok VNone
  /\ isinstance_str VNone = false
  /\ Text.apply a_text cleaners = (a_text, Raise (ValueError "Cleaner produced a non-string output."))
  /\ List.length (Text.invocations cleaners (VStr (text a_text))) = 2%nat.
Proof.
  intros cleaners.
  split; [reflexivity|]. split; [reflexivity|].
  destruct (apply_non_string_result a_text cleaners VNone eq_refl eq_refl)
    as (A & L & _).
  split; [exact A | exact L].
Defined.

(** C3 as stated fails.  With [lambda t: None] followed by a cleaner
    that returns "z" whatever it is given, [apply] does not fail at
    the first cleaner: the second one is invoked, on [None], and the
    call succeeds with the text "z".  With [str.upper] followed by
    [lambda t: None] the call raises, and the text is still "ab", not
    the "AB" that [str.upper] had produced. *)
Lemma apply_not_fail_fast :
  returns_None (VStr (text a_text)) = Ok VNone
  /\ Text.apply a_text [returns_None; constantly (lit "z")]
     = (set_text a_text (lit "z"), Ok tt)
  /\ Text.invocations [returns_None; constantly (lit "z")] (VStr (text a_text))
     = [VStr (lit "ab"); VNone]
  /\ Text.for_cleaners [str_method "upper" upper] (VStr (text a_text))
     = Ok (VStr (lit "AB"))
  /\ Text.apply a_text [str_method "upper" upper; returns_None]
     = (a_text, Raise (ValueError "Cleaner produced a non-string output."))
  /\ text (fst (Text.apply a_text [str_method "upper" upper; returns_None]))
     <> lit "AB".
Proof. repeat split; vm_compute; discriminate. Qed.

(* ================================================================== *)
(** ** Further properties of equality *)

Lemma category_inj (c d : text_class) : category c = category d -> c = d.
Proof.
  destruct c, d; intros H; try reflexivity; vm_compute in H; discriminate.
Qed.

Lemma Text_eq_true_iff (a b : TextElement) :
  Text.__eq__ a (TextObj b) = Ok true <->
  text a = text b
  /\ coordinates_eq (coordinates a) (coordinates b) = true
  /\ cls a = cls b.
Proof.
  rewrite Text_eq_value; unfold all; cbn [List.forallb].
  rewrite andb_true_r; split.
  - intros H; apply Ok_inj in H.
    apply andb_true_iff in H; destruct H as [H1 H].
    apply andb_true_iff in H; destruct H as [H2 H3].
    apply str_eq_iff in H1, H3; apply category_inj in H3; auto.
  - intros (H1 & H2 & H3); rewrite H1, H2, H3, !str_eq_refl; reflexivity.
Qed.

Lemma Text_eq_total (a b : TextElement) :
  exists r : bool, Text.__eq__ a (TextObj b) = Ok r.
Proof. rewrite Text_eq_value; eexists; reflexivity. Qed.

Lemma CheckBox_eq_value (a b : CheckBox) :
  CheckBox.__eq__ a (CheckBoxObj b)
  = Ok (Bool.eqb (checked a) (checked b)
        && coordinates_eq (coordinates a) (coordinates b)).
Proof.
  unfold CheckBox.__eq__; cbn [get_checked get_coordinates bind].
  destruct (Bool.eqb (checked a) (checked b)); reflexivity.
Qed.

Lemma op_eq_is_eq (v w : element) : op_eq v w = __eq__ v w.
Proof.
  unfold op_eq; destruct (proper_subclass w v) eqn:P; [|reflexivity].
  destruct v as [cv|tv], w as [cw|tw]; try discriminate P.
  cbn [__eq__]; apply Text_eq_sym.
Qed.

Lemma Text_init_shape (c : text_class) (t : str) (i : element_id)
      (k : option (list pyfloat)) (e : TextElement) :
  Text.__init__ c t i k = Ok e ->
  cls e = c /\ text e = t /\ coordinates e = None
  /\ (forall s, i = Id s -> id e = Id s)
  /\ (i = NoID -> exists bs, encode t = Ok bs
                             /\ id e = Id (List.firstn 32 (SHA256.hexdigest bs))).
Proof.
  unfold Text.__init__; destruct i as [|s]; cbn [isinstance_NoID bind].
  - destruct (encode t) as [bs|x]; cbn [bind]; [|discriminate].
    intros H; apply Ok_inj in H; subst e.
    repeat split; [discriminate|].
    intros _; exists bs; split; reflexivity.
  - intros H; apply Ok_inj in H; subst e.
    repeat split; [|discriminate].
    intros s' E; exact E.
Qed.

(** X1.  Two text elements of different classes are never equal,
    whatever their texts, coordinates and identifiers: the categories
    of the eight classes are pairwise different strings. *)
Theorem different_classes_never_equal (a b : TextElement) :
  cls a <> cls b ->
  Text.__eq__ a (TextObj b) = Ok false
  /\ op_eq (TextObj a) (TextObj b) = Ok false
  /\ op_eq (TextObj b) (TextObj a) = Ok false.
Proof.
  intros D.
  assert (F : forall x y : TextElement,
             cls x <> cls y -> Text.__eq__ x (TextObj y) = Ok false).
  { intros x y Dxy.
    destruct (Text_eq_total x y) as [[|] E]; [|exact E].
    apply Text_eq_true_iff in E; destruct E as (_ & _ & E); contradiction. }
  rewrite !op_eq_is_eq; cbn [__eq__].
  repeat split; apply F; auto.
Qed.

Lemma different_classes_never_equal_witness :
  let title := {| cls := Title; text_base := text_base a_text; text := text a_text |} in
  cls a_text <> cls title
  /\ text a_text = text title
  /\ op_eq (TextObj a_text) (TextObj title) = Ok false.
Proof.
  intros title.
  assert (D : cls a_text <> cls title) by discriminate.
  split; [exact D|]. split; [reflexivity|].
  exact (proj1 (proj2 (different_classes_never_equal a_text title D))).
Defined.


(** X3.  Two text elements returned by constructor calls are equal
    exactly when they have the same class and the same text: the
    identifiers and the coordinates passed to the constructors make no
    difference. *)
Theorem constructed_equal_iff
  (c1 c2 : text_class) (t1 t2 : str) (i1 i2 : element_id)
  (k1 k2 : option (list pyfloat)) (e1 e2 : TextElement) :
  Text.__init__ c1 t1 i1 k1 = Ok e1 ->
  Text.__init__ c2 t2 i2 k2 = Ok e2 ->
  (op_eq (TextObj e1) (TextObj e2) = Ok true <-> c1 = c2 /\ t1 = t2)
  /\ (op_eq (TextObj e1) (TextObj e2) = Ok false <-> c1 <> c2 \/ t1 <> t2).
Proof.
  intros H1 H2.
  destruct (Text_init_shape _ _ _ _ _ H1) as (C1 & T1 & K1 & _).
  destruct (Text_init_shape _ _ _ _ _ H2) as (C2 & T2 & K2 & _).
  rewrite op_eq_is_eq; cbn [__eq__].
  assert (E : Text.__eq__ e1 (TextObj e2) = Ok true <-> c1 = c2 /\ t1 = t2).
  { rewrite Text_eq_true_iff, K1, K2, C1, C2, T1, T2; cbn [coordinates_eq].
    tauto. }
  split; [exact E|].
  destruct (Text_eq_total e1 e2) as [[|] R]; rewrite R; split.
  - discriminate.
  - intros N; apply E in R; destruct R, N; contradiction.
  - intros _.
    assert (D : {c1 = c2} + {c1 <> c2}) by (decide equality).
    destruct D as [D|D]; [|left; exact D].
    right; intros T; assert (X : Ok false = Ok true :> result bool)
      by (rewrite <- R; apply E; auto); discriminate X.
  - reflexivity.
Qed.

Lemma constructed_equal_iff_witness :
  let here := Some [Float 7 (S754_finite false 5 1)] in
  exists e1 e2,
    Text.__init__ Title hello_world (Id (lit "a")) here = Ok e1
    /\ Text.__init__ Title hello_world (Id (lit "b")) None = Ok e2
    /\ op_eq (TextObj e1) (TextObj e2) = Ok true.
Proof.
  intros here; do 2 eexists.
  split; [reflexivity|]. split; [reflexivity|].
  apply (proj1 (constructed_equal_iff Title Title hello_world hello_world
                  (Id (lit "a")) (Id (lit "b")) here None _ _ eq_refl eq_refl)).
  split; reflexivity.
Defined.

(** X4.  The derived identifier depends on the text alone: two
    elements constructed without identifier from the same text but
    with different classes have the same identifier and are not
    equal. *)
Theorem same_derived_id_not_equal
  (c1 c2 : text_class) (t : str) (k1 k2 : option (list pyfloat))
  (e1 e2 : TextElement) :
  c1 <> c2 ->
  Text.__init__ c1 t NoID k1 = Ok e1 ->
  Text.__init__ c2 t NoID k2 = Ok e2 ->
  id e1 = id e2
  /\ id e1 <> NoID
  /\ op_eq (TextObj e1) (TextObj e2) = Ok false.
Proof.
  intros D H1 H2.
  destruct (Text_init_shape _ _ _ _ _ H1) as (C1 & _ & _ & _ & I1).
  destruct (Text_init_shape _ _ _ _ _ H2) as (C2 & _ & _ & _ & I2).
  destruct (I1 eq_refl) as (bs1 & E1 & J1).
  destruct (I2 eq_refl) as (bs2 & E2 & J2).
  rewrite E1 in E2; apply Ok_inj in E2; subst bs2.
  split; [rewrite J1, J2; reflexivity|].
  split; [rewrite J1; discriminate|].
  rewrite op_eq_is_eq; cbn [__eq__].
  destruct (Text_eq_total e1 e2) as [[|] R]; [|exact R].
  apply Text_eq_true_iff in R; destruct R as (_ & _ & R).
  rewrite C1, C2 in R; contradiction.
Qed.

Lemma same_derived_id_not_equal_witness :
  exists e1 e2,
    Title <> NarrativeText
    /\ Text.__init__ Title hello_world NoID None = Ok e1
    /\ Text.__init__ NarrativeText hello_world NoID None = Ok e2
    /\ id e1 = id e2
    /\ op_eq (TextObj e1) (TextObj e2) = Ok false.
Proof.
  assert (D : Title <> NarrativeText) by discriminate.
  assert (I : forall c, Text.__init__ c hello_world NoID None
                        = Ok {| cls := c;
                                text_base :=
                                  {| id := Id (lit "64ec88ca00b268e5ba1a35678a1b5316");
                                     coordinates := None |};
                                text := hello_world |})
    by (intros c; destruct c; vm_compute; reflexivity).
  do 2 eexists.
  split; [exact D|]. split; [apply I|]. split; [apply I|].
  destruct (same_derived_id_not_equal Title NarrativeText hello_world None None
              _ _ D (I Title) (I NarrativeText)) as (A & _ & B).
  split; [exact A | exact B].
Defined.

Lemma SFeqb_key (x y : spec_float) :
  SFeqb x y = true <-> sf_key x = sf_key y /\ sf_key x <> None.
Proof.
  destruct x as [sx|sx| |sx mx ex], y as [sy|sy| |sy my ey];
    unfold SFeqb; cbn [SFcompare sf_key];
    try destruct sx; try destruct sy; cbv beta iota;
    try (split; [discriminate
                | intros [K N];
                  first [discriminate K | exfalso; apply N; reflexivity]]);
    try (split; [intros _; split; [reflexivity | discriminate] | reflexivity]).
  all: split;
    [ destruct (Z.compare_spec ex ey) as [->| |]; try discriminate;
      destruct (Pos.compare_cont Eq mx my) eqn:E; try discriminate;
      apply Pos.compare_eq_iff in E; subst;
      intros _; split; [reflexivity | discriminate]
    | intros [K _]; injection K as -> ->;
      rewrite Z.compare_refl; fold (Pos.compare my my);
      rewrite Pos.compare_refl; reflexivity ].
Qed.

Lemma SFeqb_trans (x y z : spec_float) :
  SFeqb x y = true -> SFeqb y z = true -> SFeqb x z = true.
Proof.
  rewrite !SFeqb_key; intros [K1 N1] [K2 N2]; split; congruence.
Qed.

Lemma item_eq_trans (x y z : pyfloat) :
  (address x = address y -> number x = number y) ->
  (address y = address z -> number y = number z) ->
  item_eq x y = true -> item_eq y z = true -> item_eq x z = true.
Proof.
  unfold item_eq; intros Cxy Cyz Hxy Hyz.
  apply orb_true_iff in Hxy, Hyz; apply orb_true_iff.
  destruct Hxy as [A1|V1], Hyz as [A2|V2].
  - left; apply N.eqb_eq in A1, A2; apply N.eqb_eq; congruence.
  - right; apply N.eqb_eq in A1; rewrite (Cxy A1); exact V2.
  - right; apply N.eqb_eq in A2; rewrite <- (Cyz A2); exact V1.
  - right; exact (SFeqb_trans _ _ _ V1 V2).
Qed.

Lemma list_eq_trans (heap : list pyfloat) :
  consistent heap ->
  forall a b c : list pyfloat,
    List.incl a heap -> List.incl b heap -> List.incl c heap ->
    list_eq a b = true -> list_eq b c = true -> list_eq a c = true.
Proof.
  intros C; induction a as [|x a IH]; intros [|y b] [|z c] Ia Ib Ic;
    cbn [list_eq]; try discriminate; try reflexivity.
  intros Hab Hbc.
  apply andb_true_iff in Hab, Hbc; destruct Hab as [H1 H2], Hbc as [H3 H4].
  apply andb_true_iff; split.
  - apply (item_eq_trans x y z); try assumption;
      apply C;
      first [ apply Ia; left; reflexivity
            | apply Ib; left; reflexivity
            | apply Ic; left; reflexivity ].
  - apply (IH b c); try assumption;
      intros f Hf;
      first [ apply Ia; right; exact Hf
            | apply Ib; right; exact Hf
            | apply Ic; right; exact Hf ].
Qed.

Lemma coordinates_eq_trans (a b c : option (list pyfloat)) :
  consistent (floats_of a ++ floats_of b ++ floats_of c) ->
  coordinates_eq a b = true -> coordinates_eq b c = true ->
  coordinates_eq a c = true.
Proof.
  intros C; destruct a as [la|], b as [lb|], c as [lc|];
    cbn [coordinates_eq]; try discriminate; try reflexivity.
  cbn [floats_of] in C.
  apply (list_eq_trans _ C); intros f Hf; apply List.in_or_app.
  - left; exact Hf.
  - right; apply List.in_or_app; left; exact Hf.
  - right; apply List.in_or_app; right; exact Hf.
Qed.

(** X5.  Equality of check boxes is reflexive and symmetric.  Two
    check boxes constructed with the same coordinates and the same
    [checked] flag are equal whatever their identifiers; unlike for a
    text element the coordinates passed to the constructor count: a
    check box with coordinates differs from one without. *)
Theorem CheckBox_eq_reflexive_symmetric (a b : CheckBox) :
  CheckBox.__eq__ a (CheckBoxObj a) = Ok true
  /\ CheckBox.__eq__ a (CheckBoxObj b) = CheckBox.__eq__ b (CheckBoxObj a)
  /\ (forall (i j : element_id) (k : option (list pyfloat)) (c : bool),
         op_eq (CheckBoxObj (CheckBox.__init__ i k c))
               (CheckBoxObj (CheckBox.__init__ j k c)) = Ok true)
  /\ (forall (i j : element_id) (l : list pyfloat) (c d : bool),
         op_eq (CheckBoxObj (CheckBox.__init__ i (Some l) c))
               (CheckBoxObj (CheckBox.__init__ j None d)) = Ok false)
  /\ (forall (i j : element_id) (k1 k2 : option (list pyfloat)) (c : bool),
         op_eq (CheckBoxObj (CheckBox.__init__ i k1 c))
               (CheckBoxObj (CheckBox.__init__ j k2 (negb c))) = Ok false).
Proof.
  split; [|split; [|split; [|split]]].
  - rewrite CheckBox_eq_value, Bool.eqb_reflx, coordinates_eq_refl; reflexivity.
  - rewrite !CheckBox_eq_value, (coordinates_eq_sym (coordinates a)).
    destruct (checked a), (checked b); reflexivity.
  - intros i j k c; rewrite op_eq_is_eq; cbn [__eq__].
    rewrite CheckBox_eq_value; unfold CheckBox.__init__;
      cbn [checked checkbox_base coordinates].
    rewrite Bool.eqb_reflx, coordinates_eq_refl; reflexivity.
  - intros i j l c d; rewrite op_eq_is_eq; cbn [__eq__].
    rewrite CheckBox_eq_value; unfold CheckBox.__init__;
      cbn [checked checkbox_base coordinates coordinates_eq].
    apply f_equal, andb_false_r.
  - intros i j k1 k2 c; rewrite op_eq_is_eq; cbn [__eq__].
    rewrite CheckBox_eq_value; unfold CheckBox.__init__;
      cbn [checked checkbox_base coordinates].
    destruct c; reflexivity.
Qed.

(** X6.  Equality of elements is transitive when the float objects of
    the three coordinate lists are consistent (one address, one
    number): if [u.__eq__(v)] and [v.__eq__(w)] are true then so is
    [u.__eq__(w)], and the same holds for [==]. *)
Theorem eq_transitive (u v w : element) :
  consistent (floats_of (coordinates_of u) ++ floats_of (coordinates_of v)
              ++ floats_of (coordinates_of w)) ->
  __eq__ u v = Ok true ->
  __eq__ v w = Ok true ->
  __eq__ u w = Ok true /\ op_eq u w = Ok true.
Proof.
  intros C Huv Hvw.
  assert (G : __eq__ u w = Ok true); [|split; [exact G | rewrite op_eq_is_eq; exact G]].
  destruct u as [cu|tu], v as [cv|tv], w as [cw|tw];
    cbn [__eq__ coordinates_of] in *; try discriminate Huv; try discriminate Hvw.
  - rewrite CheckBox_eq_value in *.
    apply Ok_inj in Huv, Hvw.
    apply andb_true_iff in Huv, Hvw; destruct Huv as [B1 K1], Hvw as [B2 K2].
    apply Bool.eqb_prop in B1, B2.
    rewrite B1, B2, Bool.eqb_reflx, (coordinates_eq_trans _ _ _ C K1 K2).
    reflexivity.
  - apply Text_eq_true_iff in Huv, Hvw; apply Text_eq_true_iff.
    destruct Huv as (T1 & K1 & C1), Hvw as (T2 & K2 & C2).
    repeat split; try congruence.
    exact (coordinates_eq_trans _ _ _ C K1 K2).
Qed.

Lemma eq_transitive_witness :
  let nan := Float 1 S754_nan in
  let at_nan (i : str) :=
    TextObj {| cls := ListItem;
               text_base := {| id := Id i; coordinates := Some [nan] |};
               text := hello_world |} in
  consistent [nan; nan; nan]
  /\ __eq__ (at_nan (lit "u")) (at_nan (lit "v")) = Ok true
  /\ __eq__ (at_nan (lit "v")) (at_nan (lit "w")) = Ok true
  /\ __eq__ (at_nan (lit "u")) (at_nan (lit "w")) = Ok true.
Proof.
  intros nan at_nan.
  assert (C : consistent [nan; nan; nan]).
  { intros x y Hx Hy _.
    assert (E : forall f, List.In f [nan; nan; nan] -> f = nan)
      by (intros f [H|[H|[H|[]]]]; symmetry; exact H).
    rewrite (E x Hx), (E y Hy); reflexivity. }
  split; [exact C|]. split; [reflexivity|]. split; [reflexivity|].
  exact (proj1 (eq_transitive (at_nan (lit "u")) (at_nan (lit "v")) (at_nan (lit "w"))
                  C eq_refl eq_refl)).
Defined.

(* ================================================================== *)
(** ** Further properties of construction *)

Lemma utf8_char_scalar (c : N) : scalar c -> utf8_char c <> None.
Proof.
  intros [B S]; unfold utf8_char.
  change ((0xD800 <=? c) && (c <=? 0xDFFF)) with (is_surrogate c); rewrite S.
  apply N.ltb_lt in B; rewrite B.
  destruct (c <? 0x80), (c <? 0x800), (c <? 0x10000); discriminate.
Qed.

Lemma utf8_char_surrogate (c : N) : is_surrogate c = true -> utf8_char c = None.
Proof.
  intros S; unfold utf8_char.
  change ((0xD800 <=? c) && (c <=? 0xDFFF)) with (is_surrogate c); rewrite S.
  unfold is_surrogate in S; apply andb_true_iff in S; destruct S as [L _].
  apply N.leb_le in L.
  destruct (N.ltb_spec c 0x80); [lia|].
  destruct (N.ltb_spec c 0x800); [lia|reflexivity].
Qed.

Lemma encode_from_scalars (s : str) :
  List.Forall scalar s ->
  forall p : nat, exists bs, encode_from p s = Ok bs.
Proof.
  induction 1 as [|c s Hc _ IH]; intros p; cbn [encode_from].
  - eexists; reflexivity.
  - destruct (utf8_char c) as [bs|] eqn:E;
      [|exfalso; exact (utf8_char_scalar c Hc E)].
    destruct (IH (S p)) as [rest R]; rewrite R; cbn [bind].
    eexists; reflexivity.
Qed.

Lemma encode_from_stops (before : str) (c : N) (after : str) :
  List.Forall scalar before ->
  utf8_char c = None ->
  forall p : nat,
    encode_from p (before ++ c :: after)
    = Raise (UnicodeEncodeError (p + List.length before)).
Proof.
  intros F U; induction F as [|x before Hx _ IH]; intros p;
    cbn [List.app encode_from List.length].
  - rewrite U, PeanoNat.Nat.add_0_r; reflexivity.
  - destruct (utf8_char x) as [bs|] eqn:E;
      [|exfalso; exact (utf8_char_scalar x Hx E)].
    rewrite (IH (S p)); cbn [bind].
    rewrite PeanoNat.Nat.add_succ_r; reflexivity.
Qed.

(** X7.  A text without surrogate code points can always be given to
    a constructor without identifier, and is stored as it is.  When
    such a text is followed by a surrogate, the construction raises
    [UnicodeEncodeError] at the position of that surrogate, whatever
    comes after it; with an explicit identifier the same text is
    accepted. *)
Theorem Text_init_fails_at_first_surrogate
  (c : text_class) (before : str) (k : option (list pyfloat)) :
  List.Forall scalar before ->
  (exists e, Text.__init__ c before NoID k = Ok e
             /\ text e = before /\ Text.__str__ e = before /\ cls e = c)
  /\ (forall (x : N) (after : str),
         is_surrogate x = true ->
         Text.__init__ c (before ++ x :: after) NoID k
         = Raise (UnicodeEncodeError (List.length before))
         /\ forall s : str,
              exists e, Text.__init__ c (before ++ x :: after) (Id s) k = Ok e
                        /\ text e = before ++ x :: after).
Proof.
  intros F; split.
  - destruct (encode_from_scalars before F 0) as [bs E].
    unfold Text.__init__; cbn [isinstance_NoID]; unfold encode; rewrite E.
    cbn [bind]; eexists; repeat split.
  - intros x after S; split.
    + unfold Text.__init__; cbn [isinstance_NoID]; unfold encode.
      rewrite (encode_from_stops before x after F (utf8_char_surrogate x S) 0).
      reflexivity.
    + intros s; eexists; split; reflexivity.
Qed.

Lemma Text_init_fails_at_first_surrogate_witness :
  List.Forall scalar (lit "ab")
  /\ Text.__init__ Address (lit "ab" ++ 0xDC00 :: lit "cd") NoID None
     = Raise (UnicodeEncodeError 2).
Proof.
  assert (F : List.Forall scalar (lit "ab"))
    by (repeat constructor; reflexivity).
  split; [exact F|].
  exact (proj1 (proj2 (Text_init_fails_at_first_surrogate Address (lit "ab") None F)
                  0xDC00 (lit "cd") eq_refl)).
Defined.

(* ================================================================== *)
(** ** Further properties of the cleaning pipeline *)

Lemma for_cleaners_app (before after : list cleaner) (v : value) :
  Text.for_cleaners (before ++ after) v
  = bind (Text.for_cleaners before v) (Text.for_cleaners after).
Proof.
  revert v; induction before as [|c before IH]; intros v;
    cbn [List.app Text.for_cleaners].
  - reflexivity.
  - destruct (c v) as [w|e]; cbn [bind]; [apply IH | reflexivity].
Qed.

Lemma invocations_app (before after : list cleaner) (v0 v : value) :
  Text.for_cleaners before v0 = Ok v ->
  Text.invocations (before ++ after) v0
  = Text.invocations before v0 ++ Text.invocations after v.
Proof.
  revert v0; induction before as [|c before IH]; intros v0;
    cbn [List.app Text.for_cleaners Text.invocations].
  - intros H; apply Ok_inj in H; subst v; reflexivity.
  - destruct (c v0) as [w|e]; cbn [bind]; [|discriminate].
    intros H; rewrite (IH w H); reflexivity.
Qed.

(** X8.  Whatever the cleaners are and whatever they return or raise,
    [apply] leaves the identifier, the class and the coordinates of
    the element as they were; when it raises, the whole element is as
    it was; it returns normally exactly when the cleaners, run in
    order, end on a string, and that string is then the text. *)
Theorem apply_frame (self : TextElement) (cleaners : list cleaner) :
  let after := fst (Text.apply self cleaners) in
  let outcome := snd (Text.apply self cleaners) in
  id after = id self
  /\ cls after = cls self
  /\ coordinates after = coordinates self
  /\ match outcome with
     | Ok _ =>
         Text.for_cleaners cleaners (VStr (text self)) = Ok (VStr (text after))
         /\ Text.__str__ after = text after
     | Raise _ => after = self
     end
  /\ (outcome = Ok tt <->
      exists s, Text.for_cleaners cleaners (VStr (text self)) = Ok (VStr s)).
Proof.
  unfold Text.apply.
  destruct (Text.for_cleaners cleaners (VStr (text self))) as [[s| | | |]|e];
    cbn [fst snd set_text id cls coordinates text text_base Text.__str__];
    repeat split;
    try discriminate;
    try (intros [s' H]; discriminate H);
    try (intros _; eexists; reflexivity).
Qed.

(** X9.  When a cleaner raises, [apply] raises the same exception, the
    element is unchanged, and the cleaners after the one that raised
    are not invoked. *)
Theorem apply_cleaner_raises
  (self : TextElement) (before : list cleaner) (c : cleaner)
  (after : list cleaner) (v : value) (e : exn) :
  Text.for_cleaners before (VStr (text self)) = Ok v ->
  c v = Raise e ->
  Text.apply self (before ++ c :: after) = (self, Raise e)
  /\ Text.invocations (before ++ c :: after) (VStr (text self))
     = Text.invocations before (VStr (text self)) ++ [v]
  /\ List.length (Text.invocations (before ++ c :: after) (VStr (text self)))
     = S (List.length before).
Proof.
  intros H E.
  assert (I : Text.invocations (before ++ c :: after) (VStr (text self))
              = Text.invocations before (VStr (text self)) ++ [v]).
  { rewrite (invocations_app _ _ _ _ H); cbn [Text.invocations].
    rewrite E; reflexivity. }
  split; [|split; [exact I|]].
  - unfold Text.apply; rewrite for_cleaners_app, H; cbn [bind Text.for_cleaners].
    rewrite E; reflexivity.
  - rewrite I, List.length_app, (proj1 (invocations_all _ _ _ H)).
    cbn [List.length]; lia.
Qed.

Lemma apply_cleaner_raises_witness :
  let before := [returns_None] in
  let c := str_method "upper" upper in
  let after := [constantly (lit "z")] in
  Text.for_cleaners before (VStr (text a_text)) = Ok VNone
  /\ c VNone = Raise (TypeError "upper")
  /\ Text.apply a_text (before ++ c :: after) = (a_text, Raise (TypeError "upper"))
  /\ List.length (Text.invocations (before ++ c :: after) (VStr (text a_text)))
     = 2%nat.
Proof.
  intros before c after.
  split; [reflexivity|]. split; [reflexivity|].
  destruct (apply_cleaner_raises a_text before c after VNone (TypeError "upper")
              eq_refl eq_refl) as (A & _ & L).
  split; [exact A | exact L].
Defined.

(** X10.  Splitting a pipeline in two calls.  When the first part ends
    on a string, [apply] of the first part followed by [apply] of the
    second has the outcome of one [apply] of the whole, and on success
    leaves the same element.  On failure they differ: the single call
    leaves the element as it was, the split calls leave it with the
    text produced by the first part. *)
Theorem apply_split
  (self : TextElement) (first second : list cleaner) (s : str) :
  Text.for_cleaners first (VStr (text self)) = Ok (VStr s) ->
  let once := fst (Text.apply self first) in
  let twice := Text.apply once second in
  let whole := Text.apply self (first ++ second) in
  once = set_text self s
  /\ snd twice = snd whole
  /\ (snd whole = Ok tt -> fst twice = fst whole)
  /\ (forall e, snd whole = Raise e ->
                fst whole = self /\ fst twice = set_text self s).
Proof.
  intros H once twice whole.
  assert (O : once = set_text self s)
    by (subst once; unfold Text.apply; rewrite H; reflexivity).
  subst twice whole; rewrite O; unfold Text.apply.
  rewrite for_cleaners_app, H; cbn [bind set_text text].
  destruct (Text.for_cleaners second (VStr s)) as [[s2| | | |]|e];
    cbn [fst snd]; repeat split; try discriminate.
Qed.

Lemma apply_split_witness :
  let first := [str_method "upper" upper] in
  let second := [returns_None] in
  Text.for_cleaners first (VStr (text a_text)) = Ok (VStr (lit "AB"))
  /\ text (fst (Text.apply a_text (first ++ second))) = lit "ab"
  /\ text (fst (Text.apply (fst (Text.apply a_text first)) second)) = lit "AB".
Proof.
  intros first second.
  assert (H : Text.for_cleaners first (VStr (text a_text)) = Ok (VStr (lit "AB")))
    by reflexivity.
  split; [exact H|].
  destruct (apply_split a_text first second (lit "AB") H) as (_ & _ & _ & F).
  destruct (F (ValueError "Cleaner produced a non-string output.") eq_refl)
    as [W T].
  split; [rewrite W; reflexivity | rewrite T; reflexivity].
Defined.

(** X11.  [PageBreak] inherits [apply], so the fixed text of a page
    break is fixed at construction only: a cleaner replaces it like
    any other text, the class and the identifier stay, and the cleaned
    page break equals a new one exactly when the cleaner maps
    ["<PAGE BREAK>"] to itself. *)
Theorem PageBreak_text_can_be_cleaned (f : str -> str) (cf : cleaner) :
  string_cleaner f cf ->
  exists fresh,
    PageBreak.__init__ = Ok fresh
    /\ Text.apply fresh [cf] = (set_text fresh (f (lit "<PAGE BREAK>")), Ok tt)
    /\ cls (fst (Text.apply fresh [cf])) = PageBreak
    /\ id (fst (Text.apply fresh [cf])) = id fresh
    /\ (op_eq (TextObj (fst (Text.apply fresh [cf]))) (TextObj fresh) = Ok true
        <-> f (lit "<PAGE BREAK>") = lit "<PAGE BREAK>").
Proof.
  intros Hf; eexists; split; [apply PageBreak_init_value|].
  match goal with |- Text.apply ?p _ = _ /\ _ => set (fresh := p) end.
  assert (A : Text.apply fresh [cf]
              = (set_text fresh (f (lit "<PAGE BREAK>")), Ok tt)).
  { unfold Text.apply; cbn [Text.for_cleaners]; subst fresh; cbn [text].
    rewrite Hf; reflexivity. }
  rewrite A; cbn [fst].
  split; [reflexivity|]. split; [reflexivity|]. split; [reflexivity|].
  rewrite op_eq_is_eq; cbn [__eq__]; rewrite Text_eq_true_iff.
  subst fresh; cbn [set_text text cls coordinates text_base coordinates_eq].
  tauto.
Qed.

Lemma PageBreak_text_can_be_cleaned_witness :
  string_cleaner lower (str_method "lower" lower)
  /\ exists fresh,
       PageBreak.__init__ = Ok fresh
       /\ text (fst (Text.apply fresh [str_method "lower" lower]))
          = lit "<page break>".
Proof.
  assert (Hf : string_cleaner lower (str_method "lower" lower))
    by (intros s; reflexivity).
  split; [exact Hf|].
  destruct (PageBreak_text_can_be_cleaned lower (str_method "lower" lower) Hf)
    as (fresh & I & A & _).
  exists fresh; split; [exact I|].
  rewrite A; reflexivity.
Defined.


